(** * GolfMatch front end: the fetch-and-render lifecycle of [App]

    A shallow embedding of the two React components of the repository,

    - [src/frontend/src/App.jsx]: the listing-only component ([Module Basic]);
    - the second [App] source: the same component with a detail overlay
      ([Module Detail]);

    and the properties of the fetch lifecycle, of the render derivation and
    of the click handling that the specification states about them.

    Modelling conventions.
    - A JavaScript number is an IEEE-754 binary64 value: [float].
    - [null] in a [useState] cell is [None]; truthiness is written out
      ([truthy_string], [truthy_object]).
    - JSX is a tree of [Node]s; an [onClick] closure is a constructor of
      [Handler] that records the variables the closure captured, and its
      body is given by [run_handler].
    - A click is delivered the way the DOM does it: to the target element
      first, then to each ancestor in turn, until a handler calls
      [stopPropagation].
    - The settled promise of [axios.get] is an input ([Outcome]).  The
      [data] of a reply is whatever the body held ([JsData]): an array of
      course records, or something that is not an array.  The components
      store it unchecked, and [courses.map] in the render function throws
      on what is not an array.
    - The two setter calls that follow the [await] are applied together.
      Applied one at a time they show nothing in between: the first leaves
      [loading] on ([first_setter_unseen]). *)

From Stdlib Require Import List String ZArith Bool Arith Lia PrimFloat.
From Stdlib Require Uint63.
Import ListNotations.
Local Open Scope string_scope.
Local Open Scope bool_scope.
Local Open Scope list_scope.

Set Implicit Arguments.
#[local] Set Warnings "-register-all".

(** ** Data model *)

(** An id as it comes out of a JSON body: a number or a string. *)
Inductive JsId :=
| IdNumber (x : float)
| IdString (s : string).

(** One record of the array in [response.data]; the fields are the ones the
    components read. *)
Record Course := mkCourse {
  id : JsId;
  name : string;
  location : string;
  difficulty_rating : float;
  price_range : string;
  description : string
}.

(** [response.data] of a reply that axios accepts: the array of course
    records the endpoint is meant to send, or something that is not an
    array, namely the text of a body that is not JSON (the empty body
    included), an object (kept as its JSON text), or [null].  The elements
    of an array are taken to be course records. *)
Inductive JsData :=
| JArray (elements : list Course)
| JText (text : string)
| JObject (json : string)
| JNull.

Definition is_array (d : JsData) : bool :=
  match d with
  | JArray _ => true
  | _ => false
  end.

(** The elements of an array; nothing for what is not an array. *)
Definition records (d : JsData) : list Course :=
  match d with
  | JArray l => l
  | _ => []
  end.

(** What [await axios.get(...)] can do: return a response, or throw.  The
    thrown value is bound to [err] by the [catch] clause. *)
Record AxiosError := mkAxiosError {
  err_message : string;
  err_status : option Z
}.

Inductive Outcome :=
| Resolved (data : JsData)
| Rejected (err : AxiosError).

(** ** JSX trees *)

(** The closures passed as [onClick]. *)
Inductive Handler :=
| SelectCourse (course : Course)
    (* () => { setSelectedCourse(course); setShowModal(true); } *)
| CloseModal
    (* () => setShowModal(false) *)
| StopPropagation.
    (* e => e.stopPropagation() *)

(** A CSS value built by the template literal [`${x}%`]. *)
Inductive CssValue :=
| Percent (x : float).

Record Props := mkProps {
  key : option JsId;
  className : option string;
  style : list (string * CssValue);
  onClick : option Handler
}.

Inductive Node :=
| Text (s : string)
| Num (x : float)
| Elem (tag : string) (props : Props) (children : list Node).

Definition no_props : Props := mkProps None None [] None.
Definition cls (c : string) : Props := mkProps None (Some c) [] None.

(** JavaScript truthiness of the two kinds of nullable state cells. *)
Definition truthy_string (v : option string) : bool :=
  match v with
  | None => false
  | Some s => negb (String.eqb s "")
  end.

Definition truthy_object (A : Type) (v : option A) : bool :=
  match v with
  | None => false
  | Some _ => true
  end.

(** ** Queries on a rendered tree *)

Definition class_is (c : string) (p : Props) : bool :=
  match className p with
  | Some c' => String.eqb c c'
  | None => false
  end.

(** First element, in document order, that carries class [c]. *)
Fixpoint find_class (c : string) (n : Node) : option Node :=
  match n with
  | Elem _ p kids =>
      if class_is c p then Some n
      else
        (fix first (l : list Node) : option Node :=
           match l with
           | [] => None
           | k :: l' =>
               match find_class c k with
               | Some r => Some r
               | None => first l'
               end
           end) kids
  | _ => None
  end.

Definition has_class (c : string) (n : Node) : bool :=
  match find_class c n with Some _ => true | None => false end.

Definition children_of (n : Node) : list Node :=
  match n with
  | Elem _ _ kids => kids
  | _ => []
  end.

(** Does the text [s] occur as a text child somewhere in the tree? *)
Fixpoint has_text (s : string) (n : Node) : bool :=
  match n with
  | Text s' => String.eqb s s'
  | Num _ => false
  | Elem _ _ kids =>
      (fix any (l : list Node) : bool :=
         match l with
         | [] => false
         | k :: l' => has_text s k || any l'
         end) kids
  end.

(** The three top-level shapes the components can return. *)
Definition is_loading_view (n : Node) : bool :=
  match n with
  | Elem "div" (mkProps None None [] None) [Text "Loading..."] => true
  | _ => false
  end.

Definition is_error_view (n : Node) : bool :=
  match n with
  | Elem "div" (mkProps None None [] None) [Text "Error: "; Text _] => true
  | _ => false
  end.

Definition is_collection_view (n : Node) : bool :=
  match n with
  | Elem "div" (mkProps None (Some "App") [] None) _ => has_class "course-grid" n
  | _ => false
  end.

(** The cards of the grid, in document order. *)
Definition grid_cards (n : Node) : list Node :=
  match find_class "course-grid" n with
  | Some g => children_of g
  | None => []
  end.

(** ** Click delivery *)

(** The element a path of child indices leads to, followed by its ancestors
    up to the root ([above] collects them on the way down).  Text is not an
    event target. *)
Fixpoint bubble_path (path : list nat) (n : Node) (above : list Node)
  : option (list Node) :=
  match n with
  | Elem _ _ kids =>
      match path with
      | [] => Some (n :: above)
      | i :: rest =>
          match nth_error kids i with
          | Some k => bubble_path rest k (n :: above)
          | None => None
          end
      end
  | _ => None
  end.

Definition stops (h : Handler) : bool :=
  match h with
  | StopPropagation => true
  | _ => false
  end.

(** The handlers that run, in order, each with the class of the element it
    is attached to: bubbling ends after a handler that stops propagation. *)
Fixpoint fired (chain : list Node) : list (option string * Handler) :=
  match chain with
  | [] => []
  | Elem _ p _ :: up =>
      match onClick p with
      | Some h => (className p, h) :: (if stops h then [] else fired up)
      | None => fired up
      end
  | _ :: up => fired up
  end.

Definition handlers_of_click (path : list nat) (tree : Node)
  : option (list (option string * Handler)) :=
  option_map (@fired) (bubble_path path tree []).

Definition target_class (path : list nat) (tree : Node) : option string :=
  match bubble_path path tree [] with
  | Some (Elem _ p _ :: _) => className p
  | _ => None
  end.

(** ** The mounted component and its one request *)

(** The state cells of a component instance, the number of GET requests it
    has issued, and whether the promise of the request is still unsettled. *)
Record Mounted (S : Type) := mkMounted {
  st : S;
  requests : nat;
  inflight : bool
}.

(** [useEffect(() => { ...; fetchCourses() }, [])]: runs once, after the
    first render; [fetchCourses] calls [axios.get] and suspends. *)
Definition run_effect (S : Type) (s : S) : Mounted S :=
  mkMounted s 1 true.

(** The lifecycle value the three cells [loading], [error], [courses] stand
    for, read in the order the render function tests them. *)
Inductive FetchState :=
| Pending
| Ready (collection : JsData)
| Failed (message : string).

Definition fetch_state_of (loading : bool) (error : option string)
  (courses : JsData) : FetchState :=
  if loading then Pending
  else match error with
       | Some msg => if truthy_string error then Failed msg else Ready courses
       | None => Ready courses
       end.

(** [{v}] in JSX for a nullable string: [null] renders nothing. *)
Definition jsx_string (v : option string) : list Node :=
  match v with
  | Some s => [Text s]
  | None => []
  end.

Definition failure_message : string := "Failed to fetch courses".

Definition header : Node :=
  Elem "header" no_props
    [Elem "h1" no_props [Text "GolfMatch"];
     Elem "p" no_props [Text "Find your perfect golf course"]].

(** The JSX both components return once the courses are there: the header,
    the grid with its [cards], and whatever follows [</main>] ([after]:
    nothing in the listing component, the overlay expression in the other). *)
Definition app_view (cards after : list Node) : Node :=
  Elem "div" (cls "App")
    ([header;
      Elem "main" no_props
        [Elem "section" (cls "courses")
           [Elem "h2" no_props [Text "Available Golf Courses"];
            Elem "div" (cls "course-grid") cards]]]
     ++ after).

(** ** Expressions that can throw *)

(** Rendering either returns a tree or throws a [TypeError]. *)
Inductive result (A : Type) :=
| Ok (a : A)
| TypeError (what : string).
Arguments TypeError {A} what.

Definition bind (A B : Type) (m : result A) (k : A -> result B) : result B :=
  match m with
  | Ok a => k a
  | TypeError w => TypeError w
  end.

Notation "x <- m ;; k" := (bind m (fun x => k))
  (at level 61, m at next level, right associativity).

(** [obj.f] on a cell that holds [null] or a course. *)
Definition read (A : Type) (obj : option Course) (f : Course -> A) : result A :=
  match obj with
  | Some c => Ok (f c)
  | None => TypeError "Cannot read properties of null"
  end.

(** [courses.map(f)]: [map] is a method of arrays only. *)
Definition array_map (B : Type) (courses : JsData) (f : Course -> B)
  : result (list B) :=
  match courses with
  | JArray l => Ok (map f l)
  | JNull => TypeError "Cannot read properties of null (reading 'map')"
  | _ => TypeError "courses.map is not a function"
  end.

(** ** The listing component, [src/frontend/src/App.jsx] *)

Module Basic.

Record State := mkState {
  courses : JsData;
  loading : bool;
  error : option string
}.

(** The [useState] initial values. *)
Definition initial : State := mkState (JArray []) true None.

Definition setCourses (v : JsData) (s : State) : State :=
  mkState v (loading s) (error s).
Definition setLoading (v : bool) (s : State) : State :=
  mkState (courses s) v (error s).
Definition setError (v : option string) (s : State) : State :=
  mkState (courses s) (loading s) v.

(** The rest of [fetchCourses] once the awaited promise has settled. *)
Definition fetchCourses_settled (o : Outcome) (s : State) : State :=
  match o with
  | Resolved data => setLoading false (setCourses data s)
  | Rejected _ => setLoading false (setError (Some failure_message) s)
  end.

Definition course_card (course : Course) : Node :=
  Elem "div" (mkProps (Some (id course)) (Some "course-card") [] None)
    [Elem "h3" no_props [Text (name course)];
     Elem "p" (cls "location") [Text (location course)];
     Elem "div" (cls "details")
       [Elem "span" (cls "rating")
          [Text "Difficulty: "; Num (difficulty_rating course); Text "/5"];
        Elem "span" (cls "price") [Text (price_range course)]];
     Elem "p" (cls "description") [Text (description course)]].

Definition render (s : State) : result Node :=
  if loading s then Ok (Elem "div" no_props [Text "Loading..."])
  else if truthy_string (error s) then
    Ok (Elem "div" no_props (Text "Error: " :: jsx_string (error s)))
  else
    cards <- array_map (courses s) course_card ;;
    Ok (app_view cards []).

Definition fetch_state (s : State) : FetchState :=
  fetch_state_of (loading s) (error s) (courses s).

(** The only thing that happens to this component after mounting is that
    its request settles; a promise settles once. *)
Inductive Event :=
| Settle (o : Outcome).

Definition mount : Mounted State := run_effect initial.

Definition step (w : Mounted State) (e : Event) : option (Mounted State) :=
  match e with
  | Settle o =>
      if inflight w
      then Some (mkMounted (fetchCourses_settled o (st w)) (requests w) false)
      else None
  end.

Inductive reachable : Mounted State -> Prop :=
| reach_mount : reachable mount
| reach_step w e w' : reachable w -> step w e = Some w' -> reachable w'.

End Basic.

(** ** The component with the detail overlay *)

Module Detail.

Record State := mkState {
  courses : JsData;
  loading : bool;
  error : option string;
  selectedCourse : option Course;
  showModal : bool
}.

(** The [useState] initial values. *)
Definition initial : State := mkState (JArray []) true None None false.

Definition setCourses (v : JsData) (s : State) : State :=
  mkState v (loading s) (error s) (selectedCourse s) (showModal s).
Definition setLoading (v : bool) (s : State) : State :=
  mkState (courses s) v (error s) (selectedCourse s) (showModal s).
Definition setError (v : option string) (s : State) : State :=
  mkState (courses s) (loading s) v (selectedCourse s) (showModal s).
Definition setSelectedCourse (v : option Course) (s : State) : State :=
  mkState (courses s) (loading s) (error s) v (showModal s).
Definition setShowModal (v : bool) (s : State) : State :=
  mkState (courses s) (loading s) (error s) (selectedCourse s) v.

(** The rest of [fetchCourses] once the awaited promise has settled. *)
Definition fetchCourses_settled (o : Outcome) (s : State) : State :=
  match o with
  | Resolved data => setLoading false (setCourses data s)
  | Rejected _ => setLoading false (setError (Some failure_message) s)
  end.

Definition course_card (course : Course) : Node :=
  Elem "div"
    (mkProps (Some (id course)) (Some "course-card") []
       (Some (SelectCourse course)))
    [Elem "h3" no_props [Text (name course)];
     Elem "p" (cls "location") [Text (location course)];
     Elem "div" (cls "details")
       [Elem "span" (cls "rating")
          [Text "Difficulty: "; Num (difficulty_rating course); Text "/5"];
        Elem "span" (cls "price") [Text (price_range course)]];
     Elem "p" (cls "description") [Text (description course)];
     Elem "button" (cls "view-more") [Text "View Details"]].

(** [(selectedCourse.difficulty_rating / 5) * 100] *)
Definition rating_width (difficulty_rating : float) : float :=
  (difficulty_rating / 5) * 100.

(** The overlay JSX, as a function of the values it interpolates. *)
Definition modal_overlay (nm loc : string) (shown rating : float)
  (price about : string) : Node :=
  Elem "div" (mkProps None (Some "modal-overlay") [] (Some CloseModal))
    [Elem "div"
       (mkProps None (Some "modal-content") [] (Some StopPropagation))
       [Elem "button"
          (mkProps None (Some "close-button") [] (Some CloseModal))
          [Text "Ã—"];
        Elem "h2" no_props [Text nm];
        Elem "p" (cls "location") [Text loc];
        Elem "div" (cls "modal-details")
          [Elem "div" (cls "detail-item")
             [Elem "h4" no_props [Text "Difficulty Rating"];
              Elem "div" (cls "rating-display")
                [Elem "span" (cls "rating") [Num shown; Text "/5"];
                 Elem "div"
                   (mkProps None (Some "rating-bar")
                      [("--rating-width", Percent (rating_width rating))]
                      None)
                   []]];
           Elem "div" (cls "detail-item")
             [Elem "h4" no_props [Text "Price Range"];
              Elem "span" (cls "price") [Text price]]];
        Elem "div" (cls "description-section")
          [Elem "h4" no_props [Text "About this Course"];
           Elem "p" no_props [Text about]]]].

(** [{showModal && selectedCourse && ( ... )}]: nothing is rendered, and the
    parenthesised JSX is not evaluated, unless both operands are truthy.
    Inside it every [selectedCourse.f] is a read of the cell. *)
Definition modal (s : State) : result (list Node) :=
  if showModal s && truthy_object (selectedCourse s) then
    nm <- read (selectedCourse s) name ;;
    loc <- read (selectedCourse s) location ;;
    shown <- read (selectedCourse s) difficulty_rating ;;
    rating <- read (selectedCourse s) difficulty_rating ;;
    price <- read (selectedCourse s) price_range ;;
    about <- read (selectedCourse s) description ;;
    Ok [modal_overlay nm loc shown rating price about]
  else Ok [].

Definition render (s : State) : result Node :=
  if loading s then Ok (Elem "div" no_props [Text "Loading..."])
  else if truthy_string (error s) then
    Ok (Elem "div" no_props (Text "Error: " :: jsx_string (error s)))
  else
    cards <- array_map (courses s) course_card ;;
    overlay <- modal s ;;
    Ok (app_view cards overlay).

Definition fetch_state (s : State) : FetchState :=
  fetch_state_of (loading s) (error s) (courses s).

(** The bodies of the [onClick] closures. *)
Definition run_handler (h : Handler) (s : State) : State :=
  match h with
  | SelectCourse course => setShowModal true (setSelectedCourse (Some course) s)
  | CloseModal => setShowModal false s
  | StopPropagation => s
  end.

Definition run_handlers (hs : list (option string * Handler)) (s : State)
  : State :=
  fold_left (fun acc h => run_handler (snd h) acc) hs s.

(** A click on the element at [path] of what is currently on screen. *)
Definition click (path : list nat) (s : State) : option State :=
  match render s with
  | Ok tree =>
      match handlers_of_click path tree with
      | Some hs => Some (run_handlers hs s)
      | None => None
      end
  | TypeError _ => None
  end.

Inductive Event :=
| Settle (o : Outcome)
| Click (path : list nat).

Definition mount : Mounted State := run_effect initial.

Definition step (w : Mounted State) (e : Event) : option (Mounted State) :=
  match e with
  | Settle o =>
      if inflight w
      then Some (mkMounted (fetchCourses_settled o (st w)) (requests w) false)
      else None
  | Click path =>
      match click path (st w) with
      | Some s' => Some (mkMounted s' (requests w) (inflight w))
      | None => None
      end
  end.

Inductive reachable : Mounted State -> Prop :=
| reach_mount : reachable mount
| reach_step w e w' : reachable w -> step w e = Some w' -> reachable w'.

(** Where things are in the tree of the ready view. *)
Definition card_path (i : nat) : list nat := [1; 0; 1; i]%nat.
Definition backdrop_path : list nat := [2]%nat.
Definition content_path : list nat := [2; 0]%nat.
Definition close_path : list nat := [2; 0; 0]%nat.

End Detail.

(** ** The two components side by side *)

(** The fetch lifecycle is the same code in both sources; what is said about
    it is said once, for either component. *)
Inductive Variant :=
| Listing
| WithDetail.

Definition StateOf (v : Variant) : Type :=
  match v with
  | Listing => Basic.State
  | WithDetail => Detail.State
  end.

Definition EventOf (v : Variant) : Type :=
  match v with
  | Listing => Basic.Event
  | WithDetail => Detail.Event
  end.

Definition courses_in (v : Variant) : StateOf v -> JsData :=
  match v with
  | Listing => Basic.courses
  | WithDetail => Detail.courses
  end.

Definition loading_in (v : Variant) : StateOf v -> bool :=
  match v with
  | Listing => Basic.loading
  | WithDetail => Detail.loading
  end.

Definition error_in (v : Variant) : StateOf v -> option string :=
  match v with
  | Listing => Basic.error
  | WithDetail => Detail.error
  end.

Definition fetch_state_in (v : Variant) (s : StateOf v) : FetchState :=
  fetch_state_of (loading_in v s) (error_in v s) (courses_in v s).

Definition rendered (v : Variant) : StateOf v -> result Node :=
  match v with
  | Listing => Basic.render
  | WithDetail => Detail.render
  end.


Definition step_in (v : Variant)
  : Mounted (StateOf v) -> EventOf v -> option (Mounted (StateOf v)) :=
  match v with
  | Listing => Basic.step
  | WithDetail => Detail.step
  end.

Definition settle (v : Variant) (o : Outcome) : EventOf v :=
  match v with
  | Listing => Basic.Settle o
  | WithDetail => Detail.Settle o
  end.

Definition is_settle (v : Variant) : EventOf v -> bool :=
  match v with
  | Listing => fun e => match e with Basic.Settle _ => true end
  | WithDetail =>
      fun e => match e with Detail.Settle _ => true | Detail.Click _ => false end
  end.

Definition reachable_in (v : Variant) : Mounted (StateOf v) -> Prop :=
  match v with
  | Listing => Basic.reachable
  | WithDetail => Detail.reachable
  end.

Definition card_in (v : Variant) : Course -> Node :=
  match v with
  | Listing => Basic.course_card
  | WithDetail => Detail.course_card
  end.

(** The instances visited when the events [es] happen one after the other;
    [None] if one of them cannot happen where it is tried. *)
Fixpoint run (v : Variant) (w : Mounted (StateOf v)) (es : list (EventOf v))
  : option (list (Mounted (StateOf v))) :=
  match es with
  | [] => Some [w]
  | e :: es' =>
      match step_in v w e with
      | Some w' => option_map (cons w) (run v w' es')
      | None => None
      end
  end.

(** How many times the request settles in a sequence of events. *)
Definition settles (v : Variant) (es : list (EventOf v)) : nat :=
  List.length (filter (is_settle v) es).


(** ** A sample session *)

(** The reply of the end-to-end scenario of the specification, and the
    instances the detail component goes through when the reply arrives, the
    card is clicked and the overlay is dismissed by a click on the
    backdrop. *)
Definition pine_hills : Course :=
  mkCourse (IdNumber 1) "Pine Hills" "Austin" 3 "$$" "...".

(** Two more records, for a reply of three in no particular order. *)
Definition cedar_ridge : Course :=
  mkCourse (IdNumber 3) "Cedar Ridge" "Dallas" 4.5 "$$$" "Tight fairways.".

Definition bay_links : Course :=
  mkCourse (IdString "b-2") "Bay Links" "Houston" 1 "$" "By the water.".

Definition session_ready : Mounted Detail.State :=
  mkMounted (Detail.mkState (JArray [pine_hills]) false None None false) 1 false.

Definition session_open : Mounted Detail.State :=
  mkMounted
    (Detail.mkState (JArray [pine_hills]) false None (Some pine_hills) true) 1 false.

Definition session_dismissed : Mounted Detail.State :=
  mkMounted
    (Detail.mkState (JArray [pine_hills]) false None (Some pine_hills) false) 1 false.

(** The detail component after a rejected request, and the listing
    component after a reply with a body that is not JSON. *)
Definition session_failed : Mounted Detail.State :=
  mkMounted
    (Detail.mkState (JArray []) false (Some "Failed to fetch courses") None
       false) 1 false.

Definition session_garbled : Mounted Basic.State :=
  mkMounted (Basic.mkState (JText "<html>not json") false None) 1 false.

(** ** Notions used in the statements *)

(** The outcomes the specification counts as failures of the fetch: a
    thrown error, and a reply whose body is not a collection of course
    records. *)
Definition failing_outcome (o : Outcome) : bool :=
  match o with
  | Rejected _ => true
  | Resolved d => negb (is_array d)
  end.

(** How many of the three views a tree is. *)
Definition views_shown (n : Node) : nat :=
  Nat.b2n (is_loading_view n) + Nat.b2n (is_error_view n)
  + Nat.b2n (is_collection_view n).

(** The record a card displays: its key and the texts of its fields. *)
Definition card_course (card : Node) : option Course :=
  match card with
  | Elem _ p
      (Elem _ _ [Text nm] :: Elem _ _ [Text loc]
       :: Elem _ _ [Elem _ _ [Text _; Num r; Text _]; Elem _ _ [Text pr]]
       :: Elem _ _ [Text d] :: _) =>
      match key p with
      | Some k => Some (mkCourse k nm loc r pr d)
      | None => None
      end
  | _ => None
  end.

(** The overlay for a selected course. *)
Definition overlay_of (c : Course) : Node :=
  Detail.modal_overlay (name c) (location c) (difficulty_rating c)
    (difficulty_rating c) (price_range c) (description c).

(** Has some handler of the list stopped the event? *)
Definition stopped (hs : list (option string * Handler)) : bool :=
  existsb (fun h => stops (snd h)) hs.

(** The search of [find_class] among siblings. *)
Definition find_first (c : string) : list Node -> option Node :=
  fix first (l : list Node) : option Node :=
    match l with
    | [] => None
    | k :: l' =>
        match find_class c k with
        | Some r => Some r
        | None => first l'
        end
    end.

(** While the request is unsettled the cells hold their initial values;
    afterwards [loading] is off and [error] is [null] or the fixed message. *)
Definition basic_inv (w : Mounted Basic.State) : Prop :=
  (inflight w = true /\ st w = Basic.initial) \/
  (inflight w = false /\ Basic.loading (st w) = false /\
   (Basic.error (st w) = None \/
    Basic.error (st w) = Some failure_message /\
    Basic.courses (st w) = JArray [])).

(** While the request is unsettled the cells hold their initial values.
    After a rejection the error screen stays, and nothing was ever selected.
    After a reply the overlay is on only with a course selected, and only
    over an array. *)
Definition detail_inv (w : Mounted Detail.State) : Prop :=
  (inflight w = true /\ st w = Detail.initial) \/
  (inflight w = false /\ Detail.loading (st w) = false /\
   Detail.error (st w) = Some failure_message /\
   Detail.courses (st w) = JArray [] /\
   Detail.selectedCourse (st w) = None /\ Detail.showModal (st w) = false) \/
  (inflight w = false /\ Detail.loading (st w) = false /\
   Detail.error (st w) = None /\
   (Detail.showModal (st w) = true -> Detail.selectedCourse (st w) <> None) /\
   (Detail.showModal (st w) = true ->
    Detail.courses (st w) = JArray (records (Detail.courses (st w))))).

(** ** Further notions *)

(** The JavaScript numbers written [n] and [k/10] in a JSON body: the
    binary64 value of the whole number, and the binary64 value nearest to
    the decimal with one digit after the point. *)
Definition js_whole (n : nat) : float :=
  PrimFloat.of_uint63 (Uint63.of_Z (Z.of_nat n)).

Definition js_tenths (k : nat) : float :=
  (js_whole k / 10)%float.

(** The ratings with one decimal, in tenths, whose fill is not the decimal
    percentage. *)
Definition inexact_tenths : list nat :=
  [7; 11; 14; 21; 22; 28; 29; 33; 42; 44; 49]%nat.

(** * Properties *)

(** ** Searching a tree *)

Lemma find_class_elem c t p kids :
  find_class c (Elem t p kids) =
  if class_is c p then Some (Elem t p kids) else find_first c kids.
Proof. reflexivity. Qed.

Lemma find_first_cons c k l :
  find_first c (k :: l) =
  match find_class c k with
  | Some r => Some r
  | None => find_first c l
  end.
Proof. reflexivity. Qed.

Lemma find_first_map_none (A : Type) c (f : A -> Node) l :
  (forall a, find_class c (f a) = None) ->
  find_first c (map f l) = None.
Proof.
  intros Hf. induction l as [|a l IH]; [reflexivity|].
  cbn [map]. rewrite find_first_cons, Hf. exact IH.
Qed.

(** ** The listing component *)

Section BasicFacts.
Import Basic.

Lemma basic_render_error s msg :
  loading s = false -> error s = Some msg -> msg <> "" ->
  render s = Ok (Elem "div" no_props [Text "Error: "; Text msg]).
Proof.
  intros Hl He Hm. unfold render. rewrite Hl, He. cbn.
  destruct (String.eqb_spec msg ""); [contradiction|reflexivity].
Qed.

Lemma basic_render_ready s l :
  loading s = false -> truthy_string (error s) = false ->
  courses s = JArray l ->
  render s = Ok (app_view (map course_card l) []).
Proof. intros Hl He Hc. unfold render. rewrite Hl, He, Hc. reflexivity. Qed.

Lemma basic_reachable_inv w : reachable w -> basic_inv w.
Proof.
  induction 1 as [|w e w' Hr IH Hs].
  - left. split; reflexivity.
  - destruct e as [o]. cbn in Hs.
    destruct IH as [[Hi Hst]|[Hi _]]; rewrite Hi in Hs; [|discriminate].
    injection Hs as <-. right. rewrite Hst.
    destruct o; cbn; auto.
Qed.

(** One request per mounting. *)
Lemma basic_requests_one w : reachable w -> requests w = 1.
Proof.
  induction 1 as [|w e w' Hr IH Hs]; [reflexivity|].
  destruct e. cbn in Hs. destruct (inflight w); [|discriminate].
  injection Hs as <-. exact IH.
Qed.

End BasicFacts.

(** ** Click delivery, in general *)

Lemma bubble_path_above path : forall n above,
  bubble_path path n above =
  option_map (fun inner => inner ++ above) (bubble_path path n []).
Proof.
  induction path as [|i rest IH]; intros n above;
    destruct n as [| |t p kids]; cbn; try reflexivity.
  destruct (nth_error kids i) as [k|]; [|reflexivity].
  rewrite (IH k (Elem t p kids :: above)), (IH k [Elem t p kids]).
  destruct (bubble_path rest k []) as [inner|]; cbn; [|reflexivity].
  rewrite <- app_assoc. reflexivity.
Qed.

(** Ancestors further up are reached only if nothing below stopped the
    event. *)
Lemma fired_app inner up :
  fired (inner ++ up) =
  if stopped (fired inner) then fired inner else fired inner ++ fired up.
Proof.
  induction inner as [|n inner IH]; [reflexivity|].
  cbn [app fired]. destruct n as [| |t p kids]; try exact IH.
  destruct (onClick p) as [h|]; [|exact IH].
  unfold stopped. cbn [existsb snd]. destruct (stops h) eqn:Hs; cbn; [reflexivity|].
  rewrite IH. unfold stopped. destruct (existsb _ (fired inner)); reflexivity.
Qed.

(** Follow a path through a tree whose shape is known: split the path and
    the child indices until the walk ends or falls off the tree. *)
Ltac walk H :=
  repeat (cbn in H;
          match type of H with
          | None = Some _ => discriminate H
          | context [nth_error _ ?i] => is_var i; destruct i
          | context [bubble_path ?p (Elem _ _ _) _] =>
              is_var p; destruct p as [|? p]
          | context [bubble_path ?p (Text _) _] => is_var p; destruct p
          | context [bubble_path ?p (Num _) _] => is_var p; destruct p
          end).

(** ** The component with the detail overlay *)

Section DetailFacts.
Import Detail.

Lemma detail_run_handler_frame h s :
  courses (run_handler h s) = courses s /\
  loading (run_handler h s) = loading s /\
  error (run_handler h s) = error s.
Proof. destruct h; repeat split. Qed.

Lemma detail_run_handlers_frame hs : forall s,
  courses (run_handlers hs s) = courses s /\
  loading (run_handlers hs s) = loading s /\
  error (run_handlers hs s) = error s.
Proof.
  induction hs as [|h hs IH]; intros s; [repeat split|].
  unfold run_handlers in *. cbn [fold_left].
  destruct (IH (run_handler (snd h) s)) as (-> & -> & ->).
  apply detail_run_handler_frame.
Qed.

(** Every handler leaves a selection behind if it leaves the overlay on. *)
Lemma detail_run_handlers_selected hs : forall s,
  (showModal s = true -> selectedCourse s <> None) ->
  showModal (run_handlers hs s) = true ->
  selectedCourse (run_handlers hs s) <> None.
Proof.
  induction hs as [|h hs IH]; intros s Hs; [exact Hs|].
  unfold run_handlers in *. cbn [fold_left]. apply IH.
  destruct h as [o [c| |]]; cbn; try discriminate; exact Hs.
Qed.

Lemma detail_card_fired course p inner :
  bubble_path p (course_card course) [] = Some inner ->
  fired inner = [(Some "course-card", SelectCourse course)].
Proof.
  intros H. unfold course_card in H. walk H; injection H as <-; reflexivity.
Qed.

Lemma detail_modal_value s :
  modal s =
  Ok (match selectedCourse s with
      | Some c => if showModal s then [overlay_of c] else []
      | None => []
      end).
Proof.
  unfold modal. destruct (selectedCourse s) as [c|], (showModal s); reflexivity.
Qed.

Lemma detail_render_error s msg :
  loading s = false -> error s = Some msg -> msg <> "" ->
  render s = Ok (Elem "div" no_props [Text "Error: "; Text msg]).
Proof.
  intros Hl He Hm. unfold render. rewrite Hl, He. cbn.
  destruct (String.eqb_spec msg ""); [contradiction|reflexivity].
Qed.

Lemma detail_render_ready s l :
  loading s = false -> truthy_string (error s) = false ->
  courses s = JArray l ->
  render s =
  Ok (app_view (map course_card l)
        (match selectedCourse s with
         | Some c => if showModal s then [overlay_of c] else []
         | None => []
         end)).
Proof.
  intros Hl He Hc. unfold render.
  rewrite Hl, He, Hc, detail_modal_value. reflexivity.
Qed.

(** Past the two early returns, only an array can be rendered. *)
Lemma detail_render_needs_array s tree :
  loading s = false -> truthy_string (error s) = false ->
  render s = Ok tree ->
  courses s = JArray (records (courses s)).
Proof.
  intros Hl He. unfold render. rewrite Hl, He.
  destruct (courses s); cbn; intros H; try discriminate; reflexivity.
Qed.

Lemma detail_click_needs_array p s s' :
  loading s = false -> truthy_string (error s) = false ->
  click p s = Some s' ->
  courses s = JArray (records (courses s)).
Proof.
  intros Hl He. unfold click.
  destruct (render s) as [tree|] eqn:Hr; [|discriminate].
  intros _. exact (detail_render_needs_array s Hl He Hr).
Qed.

Lemma detail_click_frame p s s' :
  click p s = Some s' ->
  courses s' = courses s /\ loading s' = loading s /\ error s' = error s.
Proof.
  unfold click. destruct (render s) as [tree|]; [|discriminate].
  destruct (handlers_of_click p tree) as [hs|]; [|discriminate].
  intros [= <-]. apply detail_run_handlers_frame.
Qed.

Lemma detail_click_selected p s s' :
  click p s = Some s' ->
  (showModal s = true -> selectedCourse s <> None) ->
  showModal s' = true -> selectedCourse s' <> None.
Proof.
  unfold click. destruct (render s) as [tree|]; [|discriminate].
  destruct (handlers_of_click p tree) as [hs|]; [|discriminate].
  intros [= <-]. apply detail_run_handlers_selected.
Qed.

(** Nothing on the loading and error screens reacts to a click. *)
Lemma detail_click_plain p s s' :
  loading s = true \/ truthy_string (error s) = true ->
  click p s = Some s' -> s' = s.
Proof.
  intros Hv. unfold click, render, handlers_of_click.
  destruct (loading s).
  - intros H. destruct (bubble_path p _ []) eqn:Hp; [|discriminate].
    walk Hp. injection Hp as <-. cbn in H. congruence.
  - destruct Hv as [Hv|Hv]; [discriminate|]. rewrite Hv.
    destruct (error s) as [msg|]; [|discriminate].
    intros H. destruct (bubble_path p _ []) eqn:Hp; [|discriminate].
    walk Hp. injection Hp as <-. cbn in H. congruence.
Qed.

Lemma detail_reachable_inv w : reachable w -> detail_inv w.
Proof.
  induction 1 as [|w e w' Hr IH Hs].
  - left. split; reflexivity.
  - destruct e as [o|p]; cbn in Hs.
    + destruct IH as [[Hi Hst]|[(Hi & _)|(Hi & _)]]; rewrite Hi in Hs;
        try discriminate.
      injection Hs as <-. rewrite Hst. right.
      destruct o; cbn; [right|left]; repeat split; try reflexivity;
        discriminate.
    + destruct (click p (st w)) as [s'|] eqn:Hc; [|discriminate].
      injection Hs as <-. unfold detail_inv in *. cbn.
      destruct IH as [[Hi Hst]|[(Hi & Hl & He & Hrest)|(Hi & Hl & He & Hsel)]].
      * left. split; [exact Hi|].
        rewrite (detail_click_plain p (st w) (or_introl (f_equal loading Hst)) Hc).
        exact Hst.
      * right; left.
        assert (s' = st w) as ->; [|tauto].
        apply (detail_click_plain p (st w)); [|exact Hc].
        right. rewrite He. reflexivity.
      * right; right.
        destruct (detail_click_frame _ _ Hc) as (Hc' & Hl' & He').
        split; [exact Hi|]. split; [congruence|]. split; [congruence|].
        split; [apply (detail_click_selected _ _ Hc (proj1 Hsel))|].
        intros _. rewrite Hc'.
        refine (detail_click_needs_array p (st w) Hl _ Hc).
        rewrite He. reflexivity.
Qed.

(** One request per mounting, whatever is clicked. *)
Lemma detail_requests_one w : reachable w -> requests w = 1.
Proof.
  induction 1 as [|w e w' Hr IH Hs]; [reflexivity|].
  destruct e as [o|p]; cbn in Hs.
  - destruct (inflight w); [|discriminate]. injection Hs as <-. exact IH.
  - destruct (click p (st w)); [|discriminate]. injection Hs as <-. exact IH.
Qed.

End DetailFacts.

(** ** The render derivation *)

Lemma app_view_is_collection cards after :
  is_collection_view (app_view cards after) = true /\
  views_shown (app_view cards after) = 1.
Proof. split; reflexivity. Qed.

Lemma app_view_grid cards after : grid_cards (app_view cards after) = cards.
Proof. reflexivity. Qed.

(** The sample instances are reachable. *)
Lemma session_reachable :
  Detail.reachable session_ready /\ Detail.reachable session_open /\
  Detail.reachable session_dismissed.
Proof.
  assert (Detail.reachable session_ready) as H1.
  { apply (@Detail.reach_step Detail.mount
             (Detail.Settle (Resolved (JArray [pine_hills]))));
      [constructor|reflexivity]. }
  assert (Detail.reachable session_open) as H2.
  { apply (@Detail.reach_step session_ready
             (Detail.Click (Detail.card_path 0))); [exact H1|reflexivity]. }
  repeat split; try assumption.
  apply (@Detail.reach_step session_open (Detail.Click Detail.backdrop_path));
    [exact H2|reflexivity].
Qed.

Lemma session_failed_reachable : Detail.reachable session_failed.
Proof.
  apply (@Detail.reach_step Detail.mount
           (Detail.Settle (Rejected (mkAxiosError "Network Error" None))));
    [constructor|reflexivity].
Qed.

Lemma session_garbled_reachable : Basic.reachable session_garbled.
Proof.
  apply (@Basic.reach_step Basic.mount
           (Basic.Settle (Resolved (JText "<html>not json"))));
    [constructor|reflexivity].
Qed.

(** C1, as the code has it.  In every reachable state of either component
    in which the courses cell holds an array, the render function returns a
    tree that is exactly one of the loading view, the error view and the
    collection view: the loading view while the request is unsettled, the
    error view once it has settled with the error cell set, the collection
    view once it has settled with the error cell empty. *)
Theorem render_exactly_one_view (v : Variant) (w : Mounted (StateOf v))
  (l : list Course) :
  reachable_in v w ->
  courses_in v (st w) = JArray l ->
  exists tree,
    rendered v (st w) = Ok tree /\
    views_shown tree = 1 /\
    (inflight w = true -> is_loading_view tree = true) /\
    (inflight w = false -> error_in v (st w) <> None ->
     is_error_view tree = true) /\
    (inflight w = false -> error_in v (st w) = None ->
     is_collection_view tree = true).
Proof.
  destruct v; cbn [StateOf rendered error_in courses_in reachable_in] in *;
    intros Hr Ha.
  - apply basic_reachable_inv in Hr.
    destruct Hr as [[Hi Hst]|(Hi & Hl & [He|[He Hc]])].
    + rewrite Hst. eexists. split; [reflexivity|].
      repeat split; congruence.
    + rewrite (@basic_render_ready (st w) l Hl) by
        (try rewrite He; first [reflexivity|assumption]).
      eexists. split; [reflexivity|].
      destruct (app_view_is_collection (map Basic.course_card l) [])
        as [Hc Hv].
      repeat split; congruence.
    + rewrite (@basic_render_error (st w) failure_message Hl He)
        by discriminate.
      eexists. split; [reflexivity|].
      repeat split; congruence.
  - apply detail_reachable_inv in Hr.
    destruct Hr as [[Hi Hst]|[(Hi & Hl & He & _)|(Hi & Hl & He & _)]].
    + rewrite Hst. eexists. split; [reflexivity|].
      repeat split; congruence.
    + rewrite (@detail_render_error (st w) failure_message Hl He)
        by discriminate.
      eexists. split; [reflexivity|].
      repeat split; congruence.
    + rewrite (@detail_render_ready (st w) l Hl) by
        (try rewrite He; first [reflexivity|assumption]).
      eexists. split; [reflexivity|].
      match goal with
      | |- context [app_view ?c ?a] =>
          destruct (app_view_is_collection c a) as [Hc Hv]
      end.
      repeat split; congruence.
Qed.

(** The three cases at work: the freshly mounted component, the component
    after a rejected request, and the component with a reply and the
    overlay open. *)
Lemma render_exactly_one_view_witness :
  exists t1 t2 t3,
    (rendered WithDetail (st Detail.mount) = Ok t1 /\
     views_shown t1 = 1 /\ is_loading_view t1 = true) /\
    (rendered WithDetail (st session_failed) = Ok t2 /\
     views_shown t2 = 1 /\ is_error_view t2 = true) /\
    (rendered WithDetail (st session_open) = Ok t3 /\
     views_shown t3 = 1 /\ is_collection_view t3 = true).
Proof.
  destruct (@render_exactly_one_view WithDetail Detail.mount []
              Detail.reach_mount eq_refl) as (t1 & R1 & V1 & L1 & _).
  destruct (@render_exactly_one_view WithDetail session_failed []
              session_failed_reachable eq_refl) as (t2 & R2 & V2 & _ & E2 & _).
  destruct (@render_exactly_one_view WithDetail session_open [pine_hills]
              (proj1 (proj2 session_reachable)) eq_refl)
    as (t3 & R3 & V3 & _ & _ & C3).
  exists t1, t2, t3. repeat split; try assumption.
  - apply L1. reflexivity.
  - apply E2; [reflexivity|discriminate].
  - apply C3; reflexivity.
Defined.

(** C1, as stated, fails: a reply whose body is not JSON is stored as it is,
    the state is reachable, and rendering it throws, so that none of the
    three views is returned. *)
Lemma render_no_view_on_garbled_reply :
  reachable_in Listing session_garbled /\
  rendered Listing (st session_garbled)
  = TypeError "courses.map is not a function" /\
  ~ (exists tree,
       rendered Listing (st session_garbled) = Ok tree /\
       views_shown tree = 1).
Proof.
  split; [exact session_garbled_reachable|].
  split; [reflexivity|].
  intros (tree & H & _). discriminate H.
Qed.

(** ** The request settles *)

Lemma card_course_card v c : card_course (card_in v c) = Some c.
Proof. destruct v, c; reflexivity. Qed.

Lemma resolved_state v (w w' : Mounted (StateOf v)) data :
  reachable_in v w ->
  step_in v w (settle v (Resolved data)) = Some w' ->
  courses_in v (st w') = data /\
  loading_in v (st w') = false /\
  error_in v (st w') = None /\
  inflight w' = false /\
  rendered v (st w')
  = (cards <- array_map data (card_in v) ;; Ok (app_view cards [])).
Proof.
  destruct v;
    cbn [StateOf EventOf reachable_in step_in settle courses_in loading_in
         error_in rendered card_in] in *;
    intros Hr Hs.
  - apply basic_reachable_inv in Hr. cbn in Hs.
    destruct Hr as [[Hi Hst]|(Hi & _)]; rewrite Hi in Hs; [|discriminate].
    injection Hs as <-. rewrite Hst. repeat split.
  - apply detail_reachable_inv in Hr. cbn in Hs.
    destruct Hr as [[Hi Hst]|[(Hi & _)|(Hi & _)]]; rewrite Hi in Hs;
      try discriminate.
    injection Hs as <-. rewrite Hst. repeat split.
Qed.

(** Between the two setter calls of [fetchCourses] the screen is the one
    before them, and the lifecycle value is still [Pending]. *)
Lemma first_setter_unseen data :
  (forall s, Basic.loading s = true ->
     Basic.render (Basic.setCourses data s) = Basic.render s /\
     Basic.render (Basic.setError (Some failure_message) s) = Basic.render s /\
     Basic.fetch_state (Basic.setCourses data s) = Pending /\
     Basic.fetch_state (Basic.setError (Some failure_message) s) = Pending) /\
  (forall s, Detail.loading s = true ->
     Detail.render (Detail.setCourses data s) = Detail.render s /\
     Detail.render (Detail.setError (Some failure_message) s)
     = Detail.render s /\
     Detail.fetch_state (Detail.setCourses data s) = Pending /\
     Detail.fetch_state (Detail.setError (Some failure_message) s) = Pending).
Proof.
  split; intros s Hl.
  - unfold Basic.render, Basic.fetch_state, fetch_state_of. cbn.
    rewrite Hl. repeat split.
  - unfold Detail.render, Detail.fetch_state, fetch_state_of. cbn.
    rewrite Hl. repeat split.
Qed.

Lemma rejected_state v (w w' : Mounted (StateOf v)) err :
  step_in v w (settle v (Rejected err)) = Some w' ->
  loading_in v (st w') = false /\
  error_in v (st w') = Some failure_message /\
  inflight w' = false /\
  rendered v (st w') =
  Ok (Elem "div" no_props [Text "Error: "; Text failure_message]).
Proof.
  destruct v;
    cbn [StateOf EventOf step_in settle loading_in error_in rendered] in *;
    intros Hs; cbn in Hs; destruct (inflight w); try discriminate;
    injection Hs as <-; repeat split.
Qed.

(** C2, as the code has it.  Whatever was thrown, the catch clause leaves
    the same state behind: the error cell holds the fixed message, and the
    tree rendered from it is the error view with that message and without a
    card grid.  Two rejections with different causes render the same
    tree. *)
Theorem failure_is_masked (v : Variant) (w w1 w2 : Mounted (StateOf v))
  (err1 err2 : AxiosError) :
  step_in v w (settle v (Rejected err1)) = Some w1 ->
  step_in v w (settle v (Rejected err2)) = Some w2 ->
  error_in v (st w1) = Some "Failed to fetch courses" /\
  fetch_state_in v (st w1) = Failed "Failed to fetch courses" /\
  exists tree,
    rendered v (st w1) = Ok tree /\
    rendered v (st w2) = Ok tree /\
    tree = Elem "div" no_props [Text "Error: "; Text "Failed to fetch courses"] /\
    is_error_view tree = true /\
    has_text "Failed to fetch courses" tree = true /\
    has_class "course-grid" tree = false /\
    grid_cards tree = [].
Proof.
  intros H1 H2.
  destruct (rejected_state v w err1 H1) as (Hl & He & _ & Hr1).
  destruct (rejected_state v w err2 H2) as (_ & _ & _ & Hr2).
  split; [exact He|]. split.
  - unfold fetch_state_in, fetch_state_of. rewrite Hl, He. reflexivity.
  - eexists. split; [exact Hr1|]. split; [exact Hr2|]. repeat split.
Qed.

Lemma failure_is_masked_witness :
  let w1 := mkMounted
              (Basic.mkState (JArray []) false (Some "Failed to fetch courses")) 1 false in
  error_in Listing (st w1) = Some "Failed to fetch courses" /\
  fetch_state_in Listing (st w1) = Failed "Failed to fetch courses" /\
  exists tree,
    rendered Listing (st w1) = Ok tree /\
    rendered Listing (st w1) = Ok tree /\
    tree = Elem "div" no_props [Text "Error: "; Text "Failed to fetch courses"] /\
    is_error_view tree = true /\
    has_text "Failed to fetch courses" tree = true /\
    has_class "course-grid" tree = false /\
    grid_cards tree = [].
Proof.
  apply (@failure_is_masked Listing Basic.mount _ _
           (mkAxiosError "Network Error" None)
           (mkAxiosError "Request failed with status code 500" (Some 500%Z)));
    reflexivity.
Defined.

(** C2, as stated, fails for a body that cannot be decoded: the reply is
    accepted with the text as its data, the catch clause does not run, the
    error cell stays empty and rendering throws. *)
Lemma undecodable_body_is_not_masked :
  let o := Resolved (JText "<html>not json") in
  failing_outcome o = true /\
  step_in Listing Basic.mount (settle Listing o) = Some session_garbled /\
  error_in Listing (st session_garbled) <> Some "Failed to fetch courses" /\
  fetch_state_in Listing (st session_garbled)
  = Ready (JText "<html>not json") /\
  rendered Listing (st session_garbled)
  = TypeError "courses.map is not a function".
Proof.
  repeat split. discriminate.
Qed.

(** C3.  When the request settles with an empty array, the component
    renders the collection view with a grid of no cards; it renders neither
    the error view nor the loading view. *)
Theorem empty_collection_renders_empty_grid (v : Variant)
  (w w' : Mounted (StateOf v)) :
  reachable_in v w ->
  step_in v w (settle v (Resolved (JArray []))) = Some w' ->
  fetch_state_in v (st w') = Ready (JArray []) /\
  exists tree,
    rendered v (st w') = Ok tree /\
    is_collection_view tree = true /\
    has_class "course-grid" tree = true /\
    grid_cards tree = [] /\
    is_error_view tree = false /\
    is_loading_view tree = false.
Proof.
  intros Hr Hs.
  destruct (resolved_state v w (JArray []) Hr Hs) as (Hc & Hl & He & _ & Hv).
  split.
  - unfold fetch_state_in, fetch_state_of. rewrite Hl, He, Hc. reflexivity.
  - eexists. split; [exact Hv|]. repeat split.
Qed.

Lemma empty_collection_renders_empty_grid_witness :
  let w' := mkMounted (Basic.mkState (JArray []) false None) 1 false in
  fetch_state_in Listing (st w') = Ready (JArray []) /\
  exists tree,
    rendered Listing (st w') = Ok tree /\
    is_collection_view tree = true /\
    has_class "course-grid" tree = true /\
    grid_cards tree = [] /\
    is_error_view tree = false /\
    is_loading_view tree = false.
Proof.
  apply (@empty_collection_renders_empty_grid Listing Basic.mount).
  - exact Basic.reach_mount.
  - reflexivity.
Defined.

(** C8.  When the request settles with an array, that array is what the
    courses cell holds, and the grid has one card per record, in the order
    of the array: the i-th card displays the key and the fields of the
    i-th record. *)
Theorem cards_follow_response_order (v : Variant) (w w' : Mounted (StateOf v))
  (data : list Course) :
  reachable_in v w ->
  step_in v w (settle v (Resolved (JArray data))) = Some w' ->
  courses_in v (st w') = JArray data /\
  exists tree,
    rendered v (st w') = Ok tree /\
    List.length (grid_cards tree) = List.length data /\
    map card_course (grid_cards tree) = map Some data /\
    forall i c,
      nth_error data i = Some c ->
      exists card,
        nth_error (grid_cards tree) i = Some card /\
        card = card_in v c /\
        card_course card = Some c.
Proof.
  intros Hr Hs.
  destruct (resolved_state v w (JArray data) Hr Hs) as (Hc & _ & _ & _ & Hv).
  split; [exact Hc|].
  eexists. split; [exact Hv|]. rewrite app_view_grid.
  split; [apply length_map|]. split.
  - rewrite map_map. apply map_ext. intros c. apply card_course_card.
  - intros i c Hi. exists (card_in v c).
    split; [apply map_nth_error; exact Hi|].
    split; [reflexivity|apply card_course_card].
Qed.

Lemma cards_follow_response_order_witness :
  let data := [cedar_ridge; pine_hills; bay_links] in
  let w' := mkMounted (Basic.mkState (JArray data) false None) 1 false in
  courses_in Listing (st w') = JArray data /\
  exists tree,
    rendered Listing (st w') = Ok tree /\
    List.length (grid_cards tree) = List.length data /\
    map card_course (grid_cards tree) = map Some data /\
    forall i c,
      nth_error data i = Some c ->
      exists card,
        nth_error (grid_cards tree) i = Some card /\
        card = card_in Listing c /\
        card_course card = Some c.
Proof.
  apply (@cards_follow_response_order Listing Basic.mount).
  - exact Basic.reach_mount.
  - reflexivity.
Defined.

(** ** The lifecycle *)

Lemma event_cases v (e : EventOf v) :
  (exists o, e = settle v o) \/ is_settle v e = false.
Proof.
  destruct v; destruct e; cbn; eauto.
Qed.


Lemma reachable_in_step v (w w' : Mounted (StateOf v)) e :
  reachable_in v w -> step_in v w e = Some w' -> reachable_in v w'.
Proof.
  destruct v; cbn [StateOf EventOf reachable_in step_in] in *; intros Hr Hs.
  - exact (Basic.reach_step e Hr Hs).
  - exact (Detail.reach_step e Hr Hs).
Qed.


(** Settling needs an unsettled request and uses it up. *)
Lemma step_settle v (w w' : Mounted (StateOf v)) o :
  reachable_in v w ->
  step_in v w (settle v o) = Some w' ->
  inflight w = true /\ inflight w' = false /\
  fetch_state_in v (st w) = Pending /\
  match o with
  | Resolved data => fetch_state_in v (st w') = Ready data
  | Rejected _ => fetch_state_in v (st w') = Failed failure_message
  end.
Proof.
  intros Hr Hs.
  assert (inflight w = true /\ fetch_state_in v (st w) = Pending) as [Hi Hp].
  { destruct v;
      cbn [StateOf EventOf reachable_in step_in settle fetch_state_in
           courses_in loading_in error_in] in *.
    - apply basic_reachable_inv in Hr. cbn in Hs.
      destruct Hr as [[Hi Hst]|(Hi & _)]; rewrite Hi in Hs; [|discriminate].
      split; [exact Hi|rewrite Hst; reflexivity].
    - apply detail_reachable_inv in Hr. cbn in Hs.
      destruct Hr as [[Hi Hst]|[(Hi & _)|(Hi & _)]]; rewrite Hi in Hs;
        try discriminate.
      split; [exact Hi|rewrite Hst; reflexivity]. }
  split; [exact Hi|].
  destruct o as [data|err].
  - destruct (resolved_state v w data Hr Hs) as (Hc & Hl & He & Hi' & _).
    repeat split; try assumption.
    unfold fetch_state_in, fetch_state_of. rewrite Hl, He, Hc. reflexivity.
  - destruct (rejected_state v w err Hs) as (Hl & He & Hi' & _).
    repeat split; try assumption.
    unfold fetch_state_in, fetch_state_of. rewrite Hl, He. reflexivity.
Qed.

(** Anything else leaves the request and the three cells alone. *)
Lemma step_other v (w w' : Mounted (StateOf v)) e :
  is_settle v e = false ->
  step_in v w e = Some w' ->
  inflight w' = inflight w /\ requests w' = requests w /\
  courses_in v (st w') = courses_in v (st w) /\
  loading_in v (st w') = loading_in v (st w) /\
  error_in v (st w') = error_in v (st w).
Proof.
  destruct v;
    cbn [StateOf EventOf step_in is_settle courses_in loading_in error_in] in *;
    [destruct e; discriminate|].
  destruct e as [o|p]; [discriminate|].
  intros _ Hs. cbn in Hs.
  destruct (Detail.click p (st w)) as [s'|] eqn:Hc; [|discriminate].
  injection Hs as <-. cbn.
  destruct (detail_click_frame _ _ Hc) as (H1 & H2 & H3). auto.
Qed.





(** ** Selection and the overlay *)

(** C4, as the code has it.  In every reachable state of the detail
    component, if the overlay flag is on then a course is selected. *)
Theorem visible_implies_selected (w : Mounted Detail.State) :
  Detail.reachable w ->
  Detail.showModal (st w) = true ->
  Detail.selectedCourse (st w) <> None.
Proof.
  intros Hr Hv. apply detail_reachable_inv in Hr.
  destruct Hr as [[_ Hst]|[(_ & _ & _ & _ & _ & Hoff)|(_ & _ & _ & Hsel & _)]].
  - rewrite Hst in Hv. discriminate.
  - congruence.
  - exact (Hsel Hv).
Qed.

Lemma visible_implies_selected_witness :
  Detail.selectedCourse (st session_open) <> None.
Proof.
  apply (@visible_implies_selected session_open).
  - exact (proj1 (proj2 session_reachable)).
  - reflexivity.
Defined.

(** C4, as stated, fails: after the overlay has been dismissed the state is
    reachable, a course is still selected, and the flag is off. *)
Lemma visible_iff_selected_fails :
  Detail.reachable session_dismissed /\
  ~ (Detail.showModal (st session_dismissed) = true <->
     Detail.selectedCourse (st session_dismissed) <> None).
Proof.
  split; [exact (proj2 (proj2 session_reachable))|].
  intros [_ H]. cbn in H. discriminate H. discriminate.
Qed.

(** A click on a card, or on anything inside it, runs the card's handler
    and nothing else. *)
Lemma detail_click_card s l i c p s' :
  Detail.loading s = false ->
  truthy_string (Detail.error s) = false ->
  Detail.courses s = JArray l ->
  nth_error l i = Some c ->
  Detail.click (Detail.card_path i ++ p) s = Some s' ->
  s' = Detail.setShowModal true (Detail.setSelectedCourse (Some c) s).
Proof.
  intros Hl He Ha Hi. unfold Detail.click.
  rewrite (detail_render_ready s Hl He Ha).
  unfold handlers_of_click, Detail.card_path, app_view. cbn [app bubble_path nth_error].
  rewrite (map_nth_error Detail.course_card _ _ Hi).
  rewrite bubble_path_above.
  destruct (bubble_path p (Detail.course_card c) []) as [inner|] eqn:Hp;
    [|discriminate].
  cbn [option_map]. rewrite fired_app, (detail_card_fired _ _ Hp).
  destruct (Detail.selectedCourse s), (Detail.showModal s);
    intros [= <-]; reflexivity.
Qed.

Lemma detail_click_card_itself s l i c :
  Detail.loading s = false ->
  truthy_string (Detail.error s) = false ->
  Detail.courses s = JArray l ->
  nth_error l i = Some c ->
  Detail.click (Detail.card_path i) s =
  Some (Detail.setShowModal true (Detail.setSelectedCourse (Some c) s)).
Proof.
  intros Hl He Ha Hi. unfold Detail.click.
  rewrite (detail_render_ready s Hl He Ha).
  unfold handlers_of_click, Detail.card_path, app_view. cbn [app bubble_path nth_error].
  rewrite (map_nth_error Detail.course_card _ _ Hi).
  destruct (Detail.selectedCourse s), (Detail.showModal s); reflexivity.
Qed.

Lemma ready_cells s coll :
  Detail.fetch_state s = Ready coll ->
  Detail.loading s = false /\ truthy_string (Detail.error s) = false /\
  Detail.courses s = coll.
Proof.
  unfold Detail.fetch_state, fetch_state_of.
  destruct (Detail.loading s); [discriminate|].
  destruct (Detail.error s) as [msg|].
  - destruct (truthy_string (Some msg)); [discriminate|].
    intros [= <-]. auto.
  - intros [= <-]. auto.
Qed.

(** C9.  In a reachable state whose lifecycle value is [Ready] of an array,
    a click on the card of the i-th course is accepted, and a click on that card or on
    anything inside it selects that course and turns the overlay on; the
    courses, loading and error cells keep their values, no request is
    issued and the settled request stays settled. *)
Theorem card_click_selects_only (w : Mounted Detail.State) (coll : list Course)
  (i : nat) (c : Course) :
  Detail.reachable w ->
  Detail.fetch_state (st w) = Ready (JArray coll) ->
  nth_error coll i = Some c ->
  (exists w', Detail.step w (Detail.Click (Detail.card_path i)) = Some w') /\
  forall p w',
    Detail.step w (Detail.Click (Detail.card_path i ++ p)) = Some w' ->
    Detail.selectedCourse (st w') = Some c /\
    Detail.showModal (st w') = true /\
    Detail.courses (st w') = Detail.courses (st w) /\
    Detail.loading (st w') = Detail.loading (st w) /\
    Detail.error (st w') = Detail.error (st w) /\
    Detail.fetch_state (st w') = Ready (JArray coll) /\
    requests w' = requests w /\
    inflight w' = inflight w.
Proof.
  intros Hr Hf Hi.
  destruct (ready_cells _ Hf) as (Hl & He & Hc).
  split.
  - eexists. cbn [Detail.step].
    rewrite (detail_click_card_itself _ _ Hl He Hc Hi). reflexivity.
  - intros p w' Hs. cbn [Detail.step] in Hs.
    destruct (Detail.click _ (st w)) as [s'|] eqn:Hk; [|discriminate].
    injection Hs as <-. cbn [st requests inflight].
    rewrite (detail_click_card _ _ _ Hl He Hc Hi Hk).
    repeat split. exact Hf.
Qed.

Lemma card_click_selects_only_witness :
  (exists w',
     Detail.step session_ready (Detail.Click (Detail.card_path 0)) = Some w') /\
  forall p w',
    Detail.step session_ready (Detail.Click (Detail.card_path 0 ++ p))
    = Some w' ->
    Detail.selectedCourse (st w') = Some pine_hills /\
    Detail.showModal (st w') = true /\
    Detail.courses (st w') = Detail.courses (st session_ready) /\
    Detail.loading (st w') = Detail.loading (st session_ready) /\
    Detail.error (st w') = Detail.error (st session_ready) /\
    Detail.fetch_state (st w') = Ready (JArray [pine_hills]) /\
    requests w' = requests session_ready /\
    inflight w' = inflight session_ready.
Proof.
  apply (@card_click_selects_only session_ready [pine_hills] 0 pine_hills).
  - exact (proj1 session_reachable).
  - reflexivity.
  - reflexivity.
Defined.

(** With the overlay flag on in a reachable state, the overlay is on screen. *)
Lemma detail_overlay_shown w :
  Detail.reachable w ->
  Detail.showModal (st w) = true ->
  exists c,
    Detail.selectedCourse (st w) = Some c /\
    Detail.render (st w) =
    Ok (app_view (map Detail.course_card (records (Detail.courses (st w))))
          [overlay_of c]).
Proof.
  intros Hr Hv. apply detail_reachable_inv in Hr.
  destruct Hr
    as [[_ Hst]|[(_ & _ & _ & _ & _ & Hoff)|(_ & Hl & He & Hsel & Harr)]].
  - rewrite Hst in Hv. discriminate.
  - congruence.
  - destruct (Detail.selectedCourse (st w)) as [c|] eqn:Hc;
      [|exfalso; exact (Hsel Hv eq_refl)].
    exists c. split; [reflexivity|].
    rewrite (detail_render_ready (st w) Hl (l := records (Detail.courses (st w))))
      by (try rewrite He; first [reflexivity|exact (Harr Hv)]).
    rewrite Hc, Hv. reflexivity.
Qed.

(** C5.  While the overlay is shown: a click on the backdrop turns the
    overlay flag off and keeps everything else; the close button does the
    same; a click on the content, or on anything inside it, never runs the
    handler of the backdrop, and unless its target is the close button it
    leaves the state as it is. *)
Theorem overlay_dismissal (w : Mounted Detail.State) :
  Detail.reachable w ->
  Detail.showModal (st w) = true ->
  exists tree,
    Detail.render (st w) = Ok tree /\
    target_class Detail.backdrop_path tree = Some "modal-overlay" /\
    target_class Detail.content_path tree = Some "modal-content" /\
    target_class Detail.close_path tree = Some "close-button" /\
    Detail.click Detail.backdrop_path (st w)
    = Some (Detail.setShowModal false (st w)) /\
    Detail.click Detail.close_path (st w)
    = Detail.click Detail.backdrop_path (st w) /\
    forall p hs,
      handlers_of_click (Detail.content_path ++ p) tree = Some hs ->
      (forall h, ~ In (Some "modal-overlay", h) hs) /\
      (target_class (Detail.content_path ++ p) tree <> Some "close-button" ->
       Detail.click (Detail.content_path ++ p) (st w) = Some (st w)).
Proof.
  intros Hr Hv.
  destruct (detail_overlay_shown Hr Hv) as (c & Hc & Hrender).
  eexists. split; [exact Hrender|].
  unfold Detail.click. rewrite Hrender.
  repeat (split; [reflexivity|]).
  intros p hs Hhs.
  unfold target_class, handlers_of_click in *.
  destruct (bubble_path (Detail.content_path ++ p) _ []) as [chain|] eqn:Hp;
    [|discriminate].
  injection Hhs as <-.
  unfold Detail.content_path, app_view, overlay_of, Detail.modal_overlay in Hp.
  cbn [app] in Hp.
  walk Hp; injection Hp as <-; cbn;
    (split;
     [intros h Hin;
      repeat (destruct Hin as [Hin|Hin]; [discriminate Hin|]); exact Hin
     |intros Hne; try reflexivity; exfalso; apply Hne; reflexivity]).
Qed.

Lemma overlay_dismissal_witness :
  exists tree,
    Detail.render (st session_open) = Ok tree /\
    target_class Detail.backdrop_path tree = Some "modal-overlay" /\
    target_class Detail.content_path tree = Some "modal-content" /\
    target_class Detail.close_path tree = Some "close-button" /\
    Detail.click Detail.backdrop_path (st session_open)
    = Some (Detail.setShowModal false (st session_open)) /\
    Detail.click Detail.close_path (st session_open)
    = Detail.click Detail.backdrop_path (st session_open) /\
    forall p hs,
      handlers_of_click (Detail.content_path ++ p) tree = Some hs ->
      (forall h, ~ In (Some "modal-overlay", h) hs) /\
      (target_class (Detail.content_path ++ p) tree <> Some "close-button" ->
       Detail.click (Detail.content_path ++ p) (st session_open)
       = Some (st session_open)).
Proof.
  apply (@overlay_dismissal session_open).
  - exact (proj1 (proj2 session_reachable)).
  - reflexivity.
Defined.

(** ** The overlay itself *)

(** Searching the page for a class that neither the page frame nor a card
    carries comes down to searching what follows [</main>]. *)
Lemma find_class_app_view c cards after :
  class_is c (cls "App") = false ->
  class_is c (cls "courses") = false ->
  class_is c (cls "course-grid") = false ->
  find_first c cards = None ->
  find_class c (app_view cards after) = find_first c after.
Proof.
  intros H1 H2 H3 H4. unfold app_view.
  rewrite find_class_elem, H1. cbn [app].
  rewrite !find_first_cons.
  replace (find_class c header) with (@None Node) by reflexivity.
  rewrite find_class_elem. cbn [class_is className no_props].
  rewrite find_first_cons, find_class_elem, H2.
  rewrite !find_first_cons.
  replace (find_class c (Elem "h2" no_props [Text "Available Golf Courses"]))
    with (@None Node) by reflexivity.
  rewrite find_class_elem, H3, H4. reflexivity.
Qed.

(** C6.  The rating bar of the overlay carries the custom property
    [--rating-width] with the value [difficulty_rating / 5 * 100] percent of
    the selected course; in binary64 arithmetic that is exactly 60 for a
    rating of 3, 100 for a rating of 5 and 0 for a rating of 0. *)
Theorem rating_bar_fill (w : Mounted Detail.State) (c : Course) :
  Detail.reachable w ->
  Detail.showModal (st w) = true ->
  Detail.selectedCourse (st w) = Some c ->
  (exists tree,
     Detail.render (st w) = Ok tree /\
     find_class "rating-bar" tree =
     Some (Elem "div"
             (mkProps None (Some "rating-bar")
                [("--rating-width",
                  Percent ((difficulty_rating c / 5) * 100)%float)]
                None)
             [])) /\
  Detail.rating_width 3 = 60%float /\
  Detail.rating_width 5 = 100%float /\
  Detail.rating_width 0 = 0%float.
Proof.
  intros Hr Hv Hc. split; [|repeat split].
  destruct (detail_overlay_shown Hr Hv) as (c' & Hc' & Hrender).
  assert (c' = c) as -> by congruence.
  eexists. split; [exact Hrender|].
  rewrite find_class_app_view; try reflexivity.
  apply find_first_map_none. intros a. reflexivity.
Qed.

Lemma rating_bar_fill_witness :
  (exists tree,
     Detail.render (st session_open) = Ok tree /\
     find_class "rating-bar" tree =
     Some (Elem "div"
             (mkProps None (Some "rating-bar")
                [("--rating-width",
                  Percent ((difficulty_rating pine_hills / 5) * 100)%float)]
                None)
             [])) /\
  Detail.rating_width 3 = 60%float /\
  Detail.rating_width 5 = 100%float /\
  Detail.rating_width 0 = 0%float.
Proof.
  apply (@rating_bar_fill session_open pine_hills).
  - exact (proj1 (proj2 session_reachable)).
  - reflexivity.
  - reflexivity.
Defined.

(** A read of a field of [null] throws. *)
Lemma read_null (A : Type) (f : Course -> A) :
  read None f = TypeError "Cannot read properties of null".
Proof. reflexivity. Qed.

(** C10.  In any state whatever, reachable or not, the overlay expression
    does not throw; with an array in the courses cell the render function
    returns a tree, and the tree contains the overlay exactly when the
    collection view is rendered with the overlay flag on and a course
    selected.  With the flag on and nothing selected the overlay expression
    yields nothing and reads no field.  If rendering throws at all, it is
    [courses.map] that throws, on a courses cell that is not an array. *)
Theorem overlay_render_guard (s : Detail.State) (l : list Course) :
  (exists tree,
     Detail.render (Detail.setCourses (JArray l) s) = Ok tree /\
     has_class "modal-overlay" tree =
     negb (Detail.loading s) && negb (truthy_string (Detail.error s))
     && (Detail.showModal s && truthy_object (Detail.selectedCourse s))) /\
  Detail.modal (Detail.setShowModal true (Detail.setSelectedCourse None s))
  = Ok [] /\
  (exists overlay, Detail.modal s = Ok overlay) /\
  ((exists tree, Detail.render s = Ok tree) \/
   (exists what,
      array_map (Detail.courses s) Detail.course_card = TypeError what /\
      Detail.render s = TypeError what)).
Proof.
  split; [|split; [reflexivity|split]].
  - unfold Detail.render. cbn [Detail.setCourses Detail.loading Detail.error
                               Detail.courses].
    destruct (Detail.loading s) eqn:Hl.
    + eexists. split; reflexivity.
    + destruct (truthy_string (Detail.error s)) eqn:He.
      * destruct (Detail.error s) as [msg|]; [|discriminate].
        eexists. split; reflexivity.
      * rewrite detail_modal_value. cbn [bind array_map].
        eexists. split; [reflexivity|].
        unfold has_class. rewrite find_class_app_view; try reflexivity.
        -- cbn [Detail.selectedCourse Detail.showModal Detail.setCourses].
           destruct (Detail.selectedCourse s), (Detail.showModal s);
             reflexivity.
        -- apply find_first_map_none. intros a. reflexivity.
  - rewrite detail_modal_value. eexists. reflexivity.
  - unfold Detail.render.
    destruct (Detail.loading s); [left; eexists; reflexivity|].
    destruct (truthy_string (Detail.error s)); [left; eexists; reflexivity|].
    rewrite detail_modal_value.
    destruct (array_map (Detail.courses s) Detail.course_card) as [cards|what].
    + left. eexists. reflexivity.
    + right. exists what. split; reflexivity.
Qed.

(** * More about the two components *)

(** ** Where a click can land on the page *)

(** A path into the page ends in the page frame, where no handler is
    attached, or inside a card, or inside what follows [</main>]. *)
Lemma app_view_click cards after p chain :
  bubble_path p (app_view cards after) [] = Some chain ->
  fired chain = [] \/
  (exists i u k inner above,
     p = 1 :: 0 :: 1 :: i :: u /\ nth_error cards i = Some k /\
     bubble_path u k [] = Some inner /\ chain = inner ++ above /\
     fired above = []) \/
  (exists j q k inner above,
     p = S (S j) :: q /\ nth_error after j = Some k /\
     bubble_path q k [] = Some inner /\ chain = inner ++ above /\
     fired above = []).
Proof.
  intros H. unfold app_view, header in H.
  destruct p as [|a p]; [cbn in H; injection H as <-; left; reflexivity|].
  destruct a as [|[|j]].
  - left. walk H; injection H as <-; reflexivity.
  - destruct p as [|b p]; [cbn in H; injection H as <-; left; reflexivity|].
    destruct b as [|b]; [|walk H].
    destruct p as [|d p]; [cbn in H; injection H as <-; left; reflexivity|].
    destruct d as [|[|d]]; [left; walk H; injection H as <-; reflexivity| |walk H].
    destruct p as [|i u]; [cbn in H; injection H as <-; left; reflexivity|].
    right; left. cbn [bubble_path nth_error app] in H.
    destruct (nth_error cards i) as [k|] eqn:Hk; [|discriminate].
    rewrite bubble_path_above in H.
    destruct (bubble_path u k []) as [inner|] eqn:Hin; [|discriminate].
    injection H as <-.
    exists i, u, k, inner. eexists.
    repeat split; first [assumption|reflexivity].
  - right; right. cbn [bubble_path nth_error app] in H.
    destruct (nth_error after j) as [k|] eqn:Hk; [|discriminate].
    rewrite bubble_path_above in H.
    destruct (bubble_path p k []) as [inner|] eqn:Hin; [|discriminate].
    injection H as <-.
    exists j, p, k, inner. eexists.
    repeat split; first [assumption|reflexivity].
Qed.

Lemma basic_card_fired course p inner :
  bubble_path p (Basic.course_card course) [] = Some inner ->
  fired inner = [].
Proof.
  intros H. unfold Basic.course_card in H.
  walk H; injection H as <-; reflexivity.
Qed.

(** X1.  The listing component attaches no click handler anywhere: in any
    state, a click on any element of what it renders runs nothing. *)
Theorem listing_runs_no_handler (s : Basic.State) (tree : Node)
  (p : list nat) (hs : list (option string * Handler)) :
  Basic.render s = Ok tree ->
  handlers_of_click p tree = Some hs -> hs = [].
Proof.
  unfold handlers_of_click, Basic.render. intros Hr.
  destruct (bubble_path p tree []) as [chain|] eqn:Hp; [|discriminate].
  intros [= <-].
  destruct (Basic.loading s).
  - injection Hr as <-. walk Hp. injection Hp as <-. reflexivity.
  - destruct (truthy_string (Basic.error s)).
    + injection Hr as <-.
      destruct (Basic.error s); walk Hp; injection Hp as <-; reflexivity.
    + destruct (Basic.courses s) as [l| | |]; try discriminate.
      cbn in Hr. injection Hr as <-.
      destruct (app_view_click _ _ _ Hp)
        as [H|[(i & u & k & inner & above & _ & Hk & Hin & -> & Ha)
              |(j & q & k & inner & above & _ & Hk & _)]].
      * exact H.
      * rewrite nth_error_map in Hk.
        destruct (nth_error l i) as [c|]; [|discriminate].
        injection Hk as <-.
        rewrite fired_app, (basic_card_fired _ _ Hin). exact Ha.
      * destruct j; discriminate.
Qed.

Lemma listing_runs_no_handler_witness :
  let s := Basic.mkState (JArray [pine_hills]) false None in
  exists tree,
    Basic.render s = Ok tree /\
    handlers_of_click [1; 0; 1; 0; 2; 1]%nat tree = Some [] /\
    @nil (option string * Handler) = [].
Proof.
  eexists. split; [reflexivity|]. split; [reflexivity|].
  eapply (@listing_runs_no_handler
            (Basic.mkState (JArray [pine_hills]) false None) _
            [1; 0; 1; 0; 2; 1]%nat);
    reflexivity.
Defined.

(** What runs when something in the overlay is clicked. *)
Lemma overlay_fired c q inner :
  bubble_path q (overlay_of c) [] = Some inner ->
  fired inner = [(Some "modal-overlay", CloseModal)] \/
  fired inner = [(Some "modal-content", StopPropagation)] \/
  fired inner = [(Some "close-button", CloseModal);
                 (Some "modal-content", StopPropagation)].
Proof.
  intros H. unfold overlay_of, Detail.modal_overlay in H.
  walk H; injection H as <-; cbn; auto.
Qed.

(** What a click can do to the state of the detail component. *)
Lemma detail_click_cases p s s' :
  Detail.click p s = Some s' ->
  s' = s \/
  s' = Detail.setShowModal false s \/
  exists i c,
    nth_error (records (Detail.courses s)) i = Some c /\
    s' = Detail.setShowModal true (Detail.setSelectedCourse (Some c) s).
Proof.
  intros Hc.
  destruct (Detail.loading s) eqn:Hl;
    [left; apply (detail_click_plain p s); auto|].
  destruct (truthy_string (Detail.error s)) eqn:He;
    [left; apply (detail_click_plain p s); auto|].
  pose proof (detail_click_needs_array p s Hl He Hc) as Harr.
  unfold Detail.click in Hc. rewrite (detail_render_ready s Hl He Harr) in Hc.
  unfold handlers_of_click in Hc.
  destruct (bubble_path p _ []) as [chain|] eqn:Hp; [|discriminate].
  injection Hc as <-.
  destruct (app_view_click _ _ _ Hp)
    as [H|[(i & u & k & inner & above & _ & Hk & Hin & -> & Ha)
          |(j & q & k & inner & above & _ & Hk & Hin & -> & Ha)]].
  - rewrite H. left. reflexivity.
  - rewrite nth_error_map in Hk.
    destruct (nth_error (records (Detail.courses s)) i) as [c|] eqn:Hi;
      [|discriminate].
    injection Hk as <-.
    rewrite fired_app, (detail_card_fired _ _ Hin).
    cbn [stopped existsb snd stops orb].
    rewrite Ha. right; right. exists i, c. split; [exact Hi|reflexivity].
  - assert (exists c, k = overlay_of c) as [c ->].
    { destruct (Detail.selectedCourse s) as [c|], (Detail.showModal s);
        destruct j as [|[|j]]; try discriminate.
      injection Hk as <-. exists c. reflexivity. }
    rewrite fired_app, Ha.
    destruct (overlay_fired _ _ Hin) as [E|[E|E]]; rewrite E; cbn; auto.
Qed.

(** X2.  A click on the detail component, wherever it lands, does one of
    three things to the state: nothing, turn the overlay flag off, or select
    one of the courses of the collection and turn the flag on.  It never
    touches the request. *)
Theorem click_effects (w w' : Mounted Detail.State) (p : list nat) :
  Detail.step w (Detail.Click p) = Some w' ->
  requests w' = requests w /\ inflight w' = inflight w /\
  (st w' = st w \/
   st w' = Detail.setShowModal false (st w) \/
   exists i c,
     nth_error (records (Detail.courses (st w))) i = Some c /\
     st w' = Detail.setShowModal true
               (Detail.setSelectedCourse (Some c) (st w))).
Proof.
  cbn [Detail.step]. destruct (Detail.click p (st w)) as [s'|] eqn:Hc;
    [|discriminate].
  intros [= <-]. cbn [st requests inflight].
  split; [reflexivity|]. split; [reflexivity|].
  exact (detail_click_cases _ _ Hc).
Qed.

Lemma click_effects_witness :
  requests session_dismissed = requests session_open /\
  inflight session_dismissed = inflight session_open /\
  (st session_dismissed = st session_open \/
   st session_dismissed = Detail.setShowModal false (st session_open) \/
   exists i c,
     nth_error (records (Detail.courses (st session_open))) i = Some c /\
     st session_dismissed
     = Detail.setShowModal true
         (Detail.setSelectedCourse (Some c) (st session_open))).
Proof.
  apply (@click_effects session_open session_dismissed Detail.close_path).
  reflexivity.
Defined.

(** X3.  In every reachable state of the detail component the selected
    course, if there is one, is one of the courses of the collection. *)
Theorem selected_in_collection (w : Mounted Detail.State) (c : Course) :
  Detail.reachable w ->
  Detail.selectedCourse (st w) = Some c ->
  In c (records (Detail.courses (st w))).
Proof.
  intros Hr. revert c. induction Hr as [|w e w' Hr IH Hs]; intros c Hc.
  - discriminate.
  - destruct e as [o|p]; cbn [Detail.step] in Hs.
    + pose proof (detail_reachable_inv Hr) as Hinv.
      destruct Hinv as [[Hi Hst]|[(Hi & _)|(Hi & _)]]; rewrite Hi in Hs;
        try discriminate.
      injection Hs as <-. rewrite Hst in Hc. destruct o; discriminate.
    + destruct (Detail.click p (st w)) as [s'|] eqn:Hk; [|discriminate].
      injection Hs as <-. cbn [st] in *.
      destruct (detail_click_cases _ _ Hk)
        as [->|[->|(i & c' & Hi & ->)]].
      * exact (IH c Hc).
      * exact (IH c Hc).
      * cbn in Hc. injection Hc as <-. cbn.
        exact (nth_error_In _ _ Hi).
Qed.

Lemma selected_in_collection_witness :
  In pine_hills (records (Detail.courses (st session_dismissed))).
Proof.
  apply (@selected_in_collection session_dismissed pine_hills).
  - exact (proj2 (proj2 session_reachable)).
  - reflexivity.
Defined.

(** ** The screens that do not react *)

Lemma not_ready_cells v (s : StateOf v) :
  (forall coll, fetch_state_in v s <> Ready coll) ->
  loading_in v s = true \/ truthy_string (error_in v s) = true.
Proof.
  unfold fetch_state_in, fetch_state_of. intros H.
  destruct (loading_in v s); [left; reflexivity|]. right.
  destruct (error_in v s) as [msg|]; [|exfalso; exact (H _ eq_refl)].
  destruct (truthy_string (Some msg)); [reflexivity|].
  exfalso; exact (H _ eq_refl).
Qed.

(** X4.  While the loading view or the error view is shown, clicks change
    nothing: along any run of events other than the settling of the request,
    every instance visited is the one the run started from.  This holds from
    any instance, reachable or not. *)
Theorem clicks_inert_outside_collection (v : Variant)
  (w : Mounted (StateOf v)) (es : list (EventOf v))
  (ws : list (Mounted (StateOf v))) :
  (forall coll, fetch_state_in v (st w) <> Ready coll) ->
  settles v es = 0 ->
  run v w es = Some ws ->
  ws = repeat w (S (List.length es)).
Proof.
  intros Hnr. revert ws.
  induction es as [|e es IH]; intros ws Hn Hrun.
  - injection Hrun as <-. reflexivity.
  - unfold settles in Hn. cbn [filter] in Hn.
    destruct (is_settle v e) eqn:He; [discriminate|].
    cbn [run] in Hrun.
    destruct (step_in v w e) as [w'|] eqn:Hs; [|discriminate].
    assert (w' = w) as ->.
    { destruct v; cbn [StateOf EventOf step_in is_settle] in *;
        [destruct e; discriminate|].
      destruct e as [o|p]; [discriminate|].
      cbn [Detail.step] in Hs.
      destruct (Detail.click p (st w)) as [s'|] eqn:Hc; [|discriminate].
      injection Hs as <-.
      rewrite (detail_click_plain p (st w)
                 (not_ready_cells WithDetail (st w) Hnr) Hc).
      destruct w; reflexivity. }
    destruct (run v w es) as [ws'|] eqn:Hrun'; [|discriminate].
    injection Hrun as <-.
    rewrite (IH ws' Hn eq_refl). reflexivity.
Qed.

Lemma clicks_inert_outside_collection_witness :
  [Detail.mount; Detail.mount; Detail.mount]
  = repeat Detail.mount
      (S (List.length [Detail.Click []; Detail.Click []])).
Proof.
  apply (@clicks_inert_outside_collection WithDetail Detail.mount
           [Detail.Click []; Detail.Click []]).
  - intros coll. discriminate.
  - reflexivity.
  - reflexivity.
Defined.

(** ** The grid *)

Lemma ready_render v (s : StateOf v) l :
  loading_in v s = false ->
  truthy_string (error_in v s) = false ->
  courses_in v s = JArray l ->
  exists tree,
    rendered v s = Ok tree /\
    is_collection_view tree = true /\
    grid_cards tree = map (card_in v) l.
Proof.
  destruct v; cbn [StateOf loading_in error_in rendered card_in courses_in] in *;
    intros Hl He Ha.
  - rewrite (basic_render_ready s Hl He Ha). eexists. repeat split.
  - rewrite (detail_render_ready s Hl He Ha). eexists. repeat split.
Qed.

(** X5.  Once a reply with an array has arrived, the grid shows that reply
    for good:
    whatever happens afterwards, the courses cell holds the array of the
    reply and the collection view is rendered with one card per record of
    it, in its order. *)
Theorem grid_shows_reply_for_good (v : Variant) (w w1 : Mounted (StateOf v))
  (data : list Course) (es : list (EventOf v))
  (ws : list (Mounted (StateOf v))) :
  reachable_in v w ->
  step_in v w (settle v (Resolved (JArray data))) = Some w1 ->
  run v w1 es = Some ws ->
  Forall (fun w' =>
            courses_in v (st w') = JArray data /\
            exists tree,
              rendered v (st w') = Ok tree /\
              is_collection_view tree = true /\
              grid_cards tree = map (card_in v) data) ws.
Proof.
  intros Hr Hs Hrun.
  destruct (resolved_state v w (JArray data) Hr Hs)
    as (Hc & Hl & He & Hi & _).
  pose proof (reachable_in_step v w _ Hr Hs) as Hr1.
  clear Hs Hr w. revert w1 ws Hrun Hc Hl He Hi Hr1.
  induction es as [|e es IH]; intros w ws Hrun Hc Hl He Hi Hr.
  - injection Hrun as <-. constructor; [|constructor].
    split; [exact Hc|].
    destruct (ready_render v (st w) (l := data) Hl) as (tree & Ht & Hv & Hg);
      [rewrite He; reflexivity|exact Hc|].
    exists tree. rewrite Hg. auto.
  - cbn [run] in Hrun.
    destruct (step_in v w e) as [w'|] eqn:Hs; [|discriminate].
    destruct (run v w' es) as [ws'|] eqn:Hrun'; [|discriminate].
    injection Hrun as <-.
    constructor.
    + split; [exact Hc|].
      destruct (ready_render v (st w) (l := data) Hl)
        as (tree & Ht & Hv & Hg); [rewrite He; reflexivity|exact Hc|].
      exists tree. rewrite Hg. auto.
    + destruct (event_cases v e) as [[o ->]|Hne].
      * destruct (step_settle v w o Hr Hs) as (Hi' & _). congruence.
      * destruct (step_other v w e Hne Hs) as (Hi' & _ & Hc' & Hl' & He').
        apply (IH w' ws' Hrun'); try congruence.
        exact (reachable_in_step v w e Hr Hs).
Qed.

Lemma grid_shows_reply_for_good_witness :
  Forall (fun w' =>
            courses_in WithDetail (st w') = JArray [pine_hills] /\
            exists tree,
              rendered WithDetail (st w') = Ok tree /\
              is_collection_view tree = true /\
              grid_cards tree = map (card_in WithDetail) [pine_hills])
    [session_ready; session_open; session_dismissed].
Proof.
  apply (@grid_shows_reply_for_good WithDetail Detail.mount session_ready
           [pine_hills]
           [Detail.Click (Detail.card_path 0);
            Detail.Click Detail.backdrop_path]).
  - exact Detail.reach_mount.
  - reflexivity.
  - reflexivity.
Defined.

(** ** Opening and dismissing the overlay *)

(** X7.  From a state showing the collection, a click on the i-th card puts
    the overlay of the i-th course on screen, above an unchanged grid; a
    click on the backdrop then takes the overlay off the screen, keeps the
    grid and the selection, and leaves no backdrop to click. *)
Theorem open_then_dismiss (w w1 : Mounted Detail.State) (coll : list Course)
  (i : nat) (c : Course) :
  Detail.fetch_state (st w) = Ready (JArray coll) ->
  nth_error coll i = Some c ->
  Detail.step w (Detail.Click (Detail.card_path i)) = Some w1 ->
  (exists tree,
     Detail.render (st w1) = Ok tree /\
     find_class "modal-overlay" tree =
     Some (Detail.modal_overlay (name c) (location c) (difficulty_rating c)
             (difficulty_rating c) (price_range c) (description c)) /\
     grid_cards tree = map Detail.course_card coll) /\
  exists w2,
    Detail.step w1 (Detail.Click Detail.backdrop_path) = Some w2 /\
    Detail.selectedCourse (st w2) = Some c /\
    Detail.showModal (st w2) = false /\
    (exists tree,
       Detail.render (st w2) = Ok tree /\
       has_class "modal-overlay" tree = false /\
       grid_cards tree = map Detail.course_card coll) /\
    Detail.step w2 (Detail.Click Detail.backdrop_path) = None.
Proof.
  intros Hf Hi Hs.
  destruct (ready_cells _ Hf) as (Hl & He & Hc).
  cbn [Detail.step] in Hs.
  rewrite (detail_click_card_itself _ _ Hl He Hc Hi) in Hs.
  injection Hs as <-. cbn [st].
  set (s1 := Detail.setShowModal true
               (Detail.setSelectedCourse (Some c) (st w))).
  assert (Detail.render s1 =
          Ok (app_view (map Detail.course_card coll) [overlay_of c])) as Hr1
      by (apply (detail_render_ready s1); assumption).
  assert (forall a, find_class "modal-overlay" (Detail.course_card a) = None)
    as Hcards by reflexivity.
  split.
  - eexists. split; [exact Hr1|]. split; [|reflexivity].
    rewrite find_class_app_view; try reflexivity.
    apply find_first_map_none, Hcards.
  - cbn [Detail.step st requests inflight].
    unfold Detail.click at 1. rewrite Hr1.
    eexists. split; [reflexivity|]. cbn [st].
    set (s2 := Detail.run_handlers _ s1).
    assert (Detail.render s2 =
            Ok (app_view (map Detail.course_card coll) []))
      as Hr2 by (apply (detail_render_ready s2); assumption).
    split; [reflexivity|]. split; [reflexivity|]. split.
    + eexists. split; [exact Hr2|]. split; [|reflexivity].
      unfold has_class. rewrite find_class_app_view; try reflexivity.
      apply find_first_map_none, Hcards.
    + unfold Detail.click. rewrite Hr2. reflexivity.
Qed.

Lemma open_then_dismiss_witness :
  (exists tree,
     Detail.render (st session_open) = Ok tree /\
     find_class "modal-overlay" tree =
     Some (Detail.modal_overlay (name pine_hills) (location pine_hills)
             (difficulty_rating pine_hills) (difficulty_rating pine_hills)
             (price_range pine_hills) (description pine_hills)) /\
     grid_cards tree = map Detail.course_card [pine_hills]) /\
  exists w2,
    Detail.step session_open (Detail.Click Detail.backdrop_path) = Some w2 /\
    Detail.selectedCourse (st w2) = Some pine_hills /\
    Detail.showModal (st w2) = false /\
    (exists tree,
       Detail.render (st w2) = Ok tree /\
       has_class "modal-overlay" tree = false /\
       grid_cards tree = map Detail.course_card [pine_hills]) /\
    Detail.step w2 (Detail.Click Detail.backdrop_path) = None.
Proof.
  apply (@open_then_dismiss session_ready session_open [pine_hills] 0
           pine_hills); reflexivity.
Defined.

(** ** The arithmetic of the rating bar *)

Lemma float_neq_by_eqb (a b : float) :
  PrimFloat.eqb a b = false -> PrimFloat.eqb b b = true -> a <> b.
Proof. intros H1 H2 E. rewrite E in H1. congruence. Qed.

(** X8.  For a rating with one decimal between 0 and 5, given in tenths,
    the fill is the whole percentage twice the number of tenths, except for
    eleven ratings (0.7, 1.1, 1.4, 2.1, 2.2, 2.8, 2.9, 3.3, 4.2, 4.4, 4.9)
    where rounding leaves it a little off. *)
Theorem tenths_ratings_fill (k : nat) :
  k <= 50 ->
  (Detail.rating_width (js_tenths k) = js_whole (2 * k)
   <-> ~ In k inexact_tenths).
Proof.
  intros Hk.
  do 51 (destruct k as [|k];
         [first
            [split;
             [intros _ Hin; cbn in Hin;
              repeat (destruct Hin as [Hin|Hin]; [discriminate Hin|]);
              exact Hin
             |intros _; reflexivity]
            |split;
             [intros E; exfalso; revert E; apply float_neq_by_eqb; reflexivity
             |intros Hn; exfalso; apply Hn; cbn; auto 20]]
         |]).
  lia.
Qed.

Lemma tenths_ratings_fill_witness :
  Detail.rating_width (js_tenths 35) = js_whole (2 * 35)
  <-> ~ In 35 inexact_tenths.
Proof.
  apply (@tenths_ratings_fill 35). lia.
Defined.

(** X9.  The rating is not clamped: for a whole rating from 0 to 10 the
    fill is exactly twenty times the rating, which is more than 100 percent
    above 5. *)
Theorem whole_ratings_fill (n : nat) :
  n <= 10 ->
  Detail.rating_width (js_whole n) = js_whole (20 * n).
Proof.
  intros Hn. do 11 (destruct n as [|n]; [reflexivity|]). lia.
Qed.

Lemma whole_ratings_fill_witness :
  Detail.rating_width (js_whole 10) = js_whole (20 * 10).
Proof.
  apply (@whole_ratings_fill 10). lia.
Defined.

(** ** A reply that is not an array *)

(** X10.  A reply whose data is not an array is stored like any other: the
    error cell stays empty and the lifecycle value is [Ready] of that data.
    From then on rendering throws, and no further event is accepted: the
    request has settled and nothing is on screen to click. *)
Theorem non_array_reply_breaks_render (v : Variant)
  (w w' : Mounted (StateOf v)) (d : JsData) :
  reachable_in v w ->
  is_array d = false ->
  step_in v w (settle v (Resolved d)) = Some w' ->
  courses_in v (st w') = d /\
  error_in v (st w') = None /\
  fetch_state_in v (st w') = Ready d /\
  (exists what,
     array_map d (card_in v) = TypeError what /\
     rendered v (st w') = TypeError what) /\
  forall e, step_in v w' e = None.
Proof.
  intros Hr Hd Hs.
  destruct (resolved_state v w d Hr Hs) as (Hc & Hl & He & Hi & Hv).
  split; [exact Hc|]. split; [exact He|]. split.
  { unfold fetch_state_in, fetch_state_of. rewrite Hl, He, Hc. reflexivity. }
  assert (exists what, array_map d (card_in v) = TypeError what) as [what Hw].
  { destruct d; try discriminate; eexists; reflexivity. }
  assert (rendered v (st w') = TypeError what) as Ht
      by (rewrite Hv, Hw; reflexivity).
  split; [exists what; split; assumption|].
  intros e. destruct (event_cases v e) as [[o ->]|Hne].
  - destruct (step_in v w' (settle v o)) as [w2|] eqn:Hs2; [|reflexivity].
    destruct (step_settle v w' o (reachable_in_step v w _ Hr Hs) Hs2)
      as (Hi' & _).
    congruence.
  - destruct v; cbn [StateOf EventOf step_in is_settle rendered] in *;
      [destruct e; discriminate|].
    destruct e as [o|p]; [discriminate|].
    cbn [Detail.step]. unfold Detail.click. rewrite Ht. reflexivity.
Qed.

Lemma non_array_reply_breaks_render_witness :
  courses_in Listing (st session_garbled) = JText "<html>not json" /\
  error_in Listing (st session_garbled) = None /\
  fetch_state_in Listing (st session_garbled)
  = Ready (JText "<html>not json") /\
  (exists what,
     array_map (JText "<html>not json") (card_in Listing) = TypeError what /\
     rendered Listing (st session_garbled) = TypeError what) /\
  forall e, step_in Listing session_garbled e = None.
Proof.
  apply (@non_array_reply_breaks_render Listing Basic.mount session_garbled).
  - exact Basic.reach_mount.
  - reflexivity.
  - reflexivity.
Defined.
